(** * Shallow embedding of bqtableschema (main.go)

    Go strings are byte strings; they are modelled as Stdlib [string]
    (a list of 8-bit [ascii] characters).  A Go [error] is modelled by
    its message.  Go multiple results are modelled as tuples, with the
    [error] result as [option error] ([None] is [nil]). *)

From Stdlib Require Import String Ascii List Permutation Lia.
From stdpp Require Import base gmap sets strings.
Import ListNotations.

Open Scope string_scope.

Definition error := string.

(** [fmt.Errorf("<ctx>: %w", err)] *)
Definition wrap (ctx : string) (e : error) : error := ctx ++ ": " ++ e.

(** ** reflect: the type descriptors used by the mapper *)

Record reflect_Type := mkType { Type_String : string; Type_PkgPath : string }.

Definition typeOfByteSlice := mkType "[]uint8" "".
Definition typeOfDate := mkType "civil.Date" "cloud.google.com/go/civil".
Definition typeOfTime := mkType "civil.Time" "cloud.google.com/go/civil".
Definition typeOfDateTime := mkType "civil.DateTime" "cloud.google.com/go/civil".
Definition typeOfGoTime := mkType "time.Time" "time".
(** [reflect.TypeOf(&big.Rat{})]: a pointer type has an empty PkgPath. *)
Definition typeOfRat := mkType "*big.Rat" "".
(** [reflect.TypeOf(big.Rat{})] *)
Definition typeOfBigRatValue := mkType "big.Rat" "math/big".

Definition reflect_Int64_String := "int64".
Definition reflect_String_String := "string".
Definition reflect_Bool_String := "bool".
Definition reflect_Float64_String := "float64".

(** ** bigquery.FieldType ([type FieldType string]) *)

Definition FieldType := string.

Definition StringFieldType : FieldType := "STRING".
Definition BytesFieldType : FieldType := "BYTES".
Definition IntegerFieldType : FieldType := "INTEGER".
Definition FloatFieldType : FieldType := "FLOAT".
Definition BooleanFieldType : FieldType := "BOOLEAN".
Definition TimestampFieldType : FieldType := "TIMESTAMP".
Definition RecordFieldType : FieldType := "RECORD".
Definition DateFieldType : FieldType := "DATE".
Definition TimeFieldType : FieldType := "TIME".
Definition DateTimeFieldType : FieldType := "DATETIME".
Definition NumericFieldType : FieldType := "NUMERIC".
Definition GeographyFieldType : FieldType := "GEOGRAPHY".

(** [bigqueryFieldTypeToGoType]: the Go [switch] compares the string
    value against each case in order. *)
Definition bigqueryFieldTypeToGoType (bigqueryFieldType : FieldType)
  : string * string * option error :=
  let unsupported :=
    ("", "", Some ("bigquery.FieldType not supported. bigquery.FieldType="
                   ++ bigqueryFieldType)) in
  if String.eqb bigqueryFieldType BytesFieldType then
    (Type_String typeOfByteSlice, "", None)
  else if String.eqb bigqueryFieldType DateFieldType then
    (Type_String typeOfDate, Type_PkgPath typeOfDate, None)
  else if String.eqb bigqueryFieldType TimeFieldType then
    (Type_String typeOfTime, Type_PkgPath typeOfTime, None)
  else if String.eqb bigqueryFieldType DateTimeFieldType then
    (Type_String typeOfDateTime, Type_PkgPath typeOfDateTime, None)
  else if String.eqb bigqueryFieldType TimestampFieldType then
    (Type_String typeOfGoTime, Type_PkgPath typeOfGoTime, None)
  else if String.eqb bigqueryFieldType NumericFieldType then
    (Type_String typeOfRat, Type_PkgPath typeOfBigRatValue, None)
  else if String.eqb bigqueryFieldType IntegerFieldType then
    (reflect_Int64_String, "", None)
  else if String.eqb bigqueryFieldType RecordFieldType then
    unsupported
  else if String.eqb bigqueryFieldType StringFieldType
       || String.eqb bigqueryFieldType GeographyFieldType then
    (reflect_String_String, "", None)
  else if String.eqb bigqueryFieldType BooleanFieldType then
    (reflect_Bool_String, "", None)
  else if String.eqb bigqueryFieldType FloatFieldType then
    (reflect_Float64_String, "", None)
  else unsupported.

(** ** capitalizeInitial *)

(** [utf8.RuneError] (U+FFFD) encoded in UTF-8: EF BF BD. *)
Definition runeError_utf8 : string :=
  String (ascii_of_nat 239) (String (ascii_of_nat 191)
    (String (ascii_of_nat 189) EmptyString)).

(** [strings.ToUpper] applied to a one-byte string [s[:1]]: an ASCII
    byte takes the ASCII fast path ('a'..'z' minus 32); a byte >= 0x80
    is not valid UTF-8 on its own, so [strings.Map(unicode.ToUpper, _)]
    decodes it as [utf8.RuneError] and writes U+FFFD in its place. *)
Definition toUpper_byte (c : ascii) : string :=
  let n := nat_of_ascii c in
  if Nat.ltb n 128 then
    if Nat.leb 97 n && Nat.leb n 122 then String (ascii_of_nat (n - 32)) EmptyString
    else String c EmptyString
  else runeError_utf8.

(** [strings.ToUpper(s[:1]) + s[1:]] *)
Definition capitalizeInitial (s : string) : string :=
  match s with
  | EmptyString => ""
  | String c rest => toUpper_byte c ++ rest
  end.

(** ** Characters the Go source writes as escapes *)

Definition nl : string := String (ascii_of_nat 10) EmptyString.
Definition tab : string := String (ascii_of_nat 9) EmptyString.
Definition dq : string := String (ascii_of_nat 34) EmptyString.

(** ** bigquery schema types (the fields the generator reads) *)

(** [Type_] is the Go field [Type]. *)
Record FieldSchema := mkFieldSchema { Name : string; Type_ : FieldType }.

Record TableMetadata := mkTableMetadata {
  Description : string;
  FullID : string;
  Schema : list FieldSchema
}.

(** A [*bigquery.Table] handle.  [Metadata] is the outcome of the
    network call [table.Metadata(ctx)] for this table (an external
    collaborator): an error or the fetched metadata. *)
Record Table := mkTable {
  ProjectID : string;
  DatasetID : string;
  TableID : string;
  Metadata : error + TableMetadata
}.

(** ** generateTableSchemaCode *)

Section Generator.

(** The [%#v] rendering of the [*bigquery.Table] value (Go runtime). *)
Variable dumpTable : Table -> string.

(** The [for _, schema := range schemas] loop of
    [generateTableSchemaCode], with its two accumulators; an error
    returns [("", nil, err)] from the whole function. *)
Fixpoint generateFieldsCode (schemas : list FieldSchema)
    (generatedCode : string) (importPackages : list string)
  : string * list string * option error :=
  match schemas with
  | [] => (generatedCode, importPackages, None)
  | schema :: rest =>
      match bigqueryFieldTypeToGoType (Type_ schema) with
      | (_, _, Some err) =>
          ("", [], Some (wrap "bigqueryFieldTypeToGoType" err))
      | (goTypeStr, pkg, None) =>
          let importPackages' :=
            if String.eqb pkg "" then importPackages
            else (importPackages ++ [pkg])%list in
          generateFieldsCode rest
            (generatedCode ++ tab ++ capitalizeInitial (Name schema) ++ " "
               ++ goTypeStr ++ " `bigquery:" ++ dq ++ Name schema ++ dq
               ++ "`" ++ nl)
            importPackages'
      end
  end.

Definition structHeader (structName : string) (md : TableMetadata) : string :=
  "// " ++ structName ++ " is BigQuery Table `" ++ FullID md
    ++ "` schema struct." ++ nl
  ++ "// Description: " ++ Description md ++ nl
  ++ "type " ++ structName ++ " struct {" ++ nl.

Definition generateTableSchemaCode (table : Table)
  : string * list string * option error :=
  if String.eqb (TableID table) "" then
    ("", [], Some ("*bigquery.Table.TableID is empty. *bigquery.Table struct dump: "
                   ++ dumpTable table))
  else
    let structName := capitalizeInitial (TableID table) in
    match Metadata table with
    | inl err => ("", [], Some (wrap "table.Metadata" err))
    | inr md =>
        match generateFieldsCode (Schema md) (structHeader structName md) [] with
        | (_, _, Some err) => ("", [], Some err)
        | (generatedCode, importPackages, None) =>
            (generatedCode ++ "}" ++ nl, importPackages, None)
        end
    end.

End Generator.

(** ** generateImportPackagesCode *)

(** [importPackagesUniq := make(map[string]bool)] filled with
    [importPackagesUniq[pkg] = true]: a map to the constant [true] is
    the set of its keys. *)
Definition importPackagesUniq (importPackages : list string) : gset string :=
  fold_left (fun (m : gset string) pkg => {[pkg]} ∪ m) importPackages ∅.

Definition singleImport (pkg : string) : string :=
  "import " ++ dq ++ pkg ++ dq ++ nl.

Definition groupedImportLine (pkg : string) : string :=
  tab ++ dq ++ pkg ++ dq ++ nl.

(** [iter] is the order in which [for pkg := range importPackagesUniq]
    visits the keys; Go leaves it unspecified (it is randomised). *)
Definition generateImportPackagesCode (iter : gset string -> list string)
    (importPackages : list string) : string :=
  let uniq := importPackagesUniq importPackages in
  let n := size uniq in
  if Nat.eqb n 0 then ""
  else if Nat.eqb n 1 then
    fold_left (fun _ pkg => singleImport pkg) (iter uniq) "" ++ nl
  else
    fold_left (fun acc pkg => acc ++ groupedImportLine pkg) (iter uniq)
      ("import (" ++ nl) ++ ")" ++ nl ++ nl.

(** ** getOptOrEnvOrDefault *)

(** [getenv] is [os.Getenv]: the empty string for an unset variable. *)
Definition getOptOrEnvOrDefault (getenv : string -> string)
    (optKey optValue envKey defaultValue : string) : string * option error :=
  if String.eqb optKey "" then ("", Some "optKey is empty")
  else if negb (String.eqb optValue "") then (optValue, None)
  else
    let envValue := getenv envKey in
    if negb (String.eqb envValue "") then (envValue, None)
    else if negb (String.eqb defaultValue "") then (defaultValue, None)
    else ("", Some ("set option -" ++ optKey ++ ", or set environment variable "
                    ++ envKey)).

(** ** getAllTables and Generate *)

(** One call of [tableIterator.Next()]: a table or an error; the end of
    the list is [iterator.Done]. *)
Inductive NextResult :=
| NextTable (t : Table)
| NextErr (e : error).

(** [client.Dataset(datasetID).Tables(ctx)], as the sequence of results
    its iterator returns (the warehouse API, an external collaborator). *)
Definition Client := string -> list NextResult.

Fixpoint getAllTables_loop (it : list NextResult) (tables : list Table)
  : list Table * option error :=
  match it with
  | [] => (tables, None)
  | NextErr err :: _ => ([], Some (wrap "tableIterator.Next" err))
  | NextTable table :: rest => getAllTables_loop rest (tables ++ [table])%list
  end.

Definition getAllTables (client : Client) (datasetID : string)
  : list Table * option error :=
  getAllTables_loop (client datasetID) [].

Definition head : string :=
  "// Code generated by go run github.com/djeeno/bqtableschema; DO NOT EDIT."
  ++ nl ++ nl
  ++ "//go:generate go run github.com/djeeno/bqtableschema" ++ nl ++ nl
  ++ "package bqtableschema" ++ nl ++ nl.

Section Generate.

Variable dumpTable : Table -> string.
Variable iter : gset string -> list string.
(** [format.Source] and [imports.Process] (external collaborators). *)
Variable formatSource : string -> string * option error.
Variable importsProcess : string -> string * option error.

(** The [for _, table := range tables] loop of [Generate]: the lines
    written by [log.Printf], [tail] and [importPackages]. *)
Fixpoint generate_loop (tables : list Table) (logs : list string)
    (tail : string) (importPackages : list string)
  : list string * string * list string :=
  match tables with
  | [] => (logs, tail, importPackages)
  | table :: rest =>
      match generateTableSchemaCode dumpTable table with
      | (_, _, Some err) =>
          generate_loop rest
            (logs ++ [("generateTableSchemaCode: " ++ err ++ nl)%string])%list
            tail importPackages
      | (structCode, pkgs, None) =>
          let importPackages' :=
            if Nat.ltb 0 (length pkgs) then (importPackages ++ pkgs)%list
            else importPackages in
          generate_loop rest logs (tail ++ structCode) importPackages'
      end
  end.

(** [Generate]: the log lines, then the [(generatedCode, err)] results
    ([nil] bytes as the empty string). *)
Definition Generate (client : Client) (dataset : string)
  : list string * (string * option error) :=
  match getAllTables client dataset with
  | (_, Some err) => ([], ("", Some (wrap "getAllTables" err)))
  | (tables, None) =>
      let '(logs, tail, importPackages) := generate_loop tables [] "" [] in
      let importCode := generateImportPackagesCode iter importPackages in
      let code := head ++ importCode ++ tail in
      match formatSource code with
      | (_, Some err) => (logs, ("", Some (wrap "format.Source" err)))
      | (genFmt, None) =>
          match importsProcess genFmt with
          | (_, Some err) => (logs, ("", Some (wrap "imports.Process" err)))
          | (genImports, None) => (logs, (genImports, None))
          end
      end
  end.

End Generate.

(** ** Run *)

Definition optNameProjectID := "project".
Definition optNameDataset := "dataset".
Definition optNameKeyFile := "keyfile".
Definition optNameOutputFile := "output".
Definition envNameGoogleApplicationCredentials := "GOOGLE_APPLICATION_CREDENTIALS".
Definition envNameGCloudProjectID := "GCLOUD_PROJECT_ID".
Definition envNameBigQueryDataset := "BIGQUERY_DATASET".
Definition envNameOutputFile := "OUTPUT_FILE".
Definition defaultValueEmpty := "".
Definition defaultValueOutputFile := "bqtableschema.generated.go".

(** The flag values [main] parses into the package variables. *)
Record Options := mkOptions {
  optValueProjectID : string;
  optValueDataset : string;
  optValueKeyFile : string;
  optValueOutputPath : string
}.

(** The observable effects of [Run]: [os.Setenv], the lines written by
    [log.Printf] during [Generate], and [ioutil.WriteFile]. *)
Inductive RunEvent :=
| SetenvEvent (key value : string)
| LogEvent (line : string)
| WriteFileEvent (path contents : string).

(** The environment after a successful [os.Setenv(key, value)]. *)
Definition setenvUpdate (getenv : string -> string) (key value : string)
  : string -> string :=
  fun k => if String.eqb k key then value else getenv k.

Section Run.

Variable getenv : string -> string.
(** [os.Setenv]: its error, if any. *)
Variable setenv : string -> string -> option error.
(** [bigquery.NewClient(ctx, project)]; it reads the credentials from
    the environment it is given. *)
Variable newClient : (string -> string) -> string -> Client * option error.
Variable dumpTable : Table -> string.
Variable iter : gset string -> list string.
Variable formatSource importsProcess : string -> string * option error.
(** [ioutil.WriteFile(path, data, 0644)]: its error, if any. *)
Variable writeFile : string -> string -> option error.

(** [Run].  The deferred [client.Close()] only logs its error and does
    not change the result; it is not modelled. *)
Definition Run (opts : Options) : list RunEvent * option error :=
  match getOptOrEnvOrDefault getenv optNameOutputFile (optValueOutputPath opts)
          envNameOutputFile defaultValueOutputFile with
  | (_, Some err) => ([], Some (wrap "getOptOrEnvOrDefault" err))
  | (filePath, None) =>
  match getOptOrEnvOrDefault getenv optNameKeyFile (optValueKeyFile opts)
          envNameGoogleApplicationCredentials "" with
  | (_, Some err) => ([], Some (wrap "getOptOrEnvOrDefault" err))
  | (keyfile, None) =>
  match getOptOrEnvOrDefault getenv optNameProjectID (optValueProjectID opts)
          envNameGCloudProjectID "" with
  | (_, Some err) => ([], Some (wrap "getOptOrEnvOrDefault" err))
  | (project, None) =>
  match getOptOrEnvOrDefault getenv optNameDataset (optValueDataset opts)
          envNameBigQueryDataset "" with
  | (_, Some err) => ([], Some (wrap "getOptOrEnvOrDefault" err))
  | (dataset, None) =>
      let '(events, env, setErr) :=
        if negb (String.eqb (getenv envNameGoogleApplicationCredentials) keyfile) then
          match setenv envNameGoogleApplicationCredentials keyfile with
          | Some err => ([], getenv, Some err)
          | None => ([SetenvEvent envNameGoogleApplicationCredentials keyfile],
                     setenvUpdate getenv envNameGoogleApplicationCredentials keyfile,
                     None)
          end
        else ([], getenv, None) in
      match setErr with
      | Some err => (events, Some (wrap "os.Setenv" err))
      | None =>
      match newClient env project with
      | (_, Some err) => (events, Some (wrap "bigquery.NewClient" err))
      | (client, None) =>
          let '(logs, result) :=
            Generate dumpTable iter formatSource importsProcess client dataset in
          let events' := (events ++ map LogEvent logs)%list in
          match result with
          | (_, Some err) => (events', Some (wrap "Generate" err))
          | (generatedCode, None) =>
              match writeFile filePath generatedCode with
              | Some err => (events', Some (wrap "ioutil.WriteFile" err))
              | None => ((events' ++ [WriteFileEvent filePath generatedCode])%list, None)
              end
          end
      end
      end
  end
  end
  end
  end.

End Run.

(** ** Specification-side vocabulary *)

(** The supported semantic types of the spec (section 4.1). *)
Definition supportedFieldTypes : list FieldType :=
  [StringFieldType; GeographyFieldType; BytesFieldType; IntegerFieldType;
   FloatFieldType; BooleanFieldType; TimestampFieldType; DateFieldType;
   TimeFieldType; DateTimeFieldType; NumericFieldType].

(** The Go source text of one generated struct field. *)
Definition fieldLine (schema : FieldSchema) : string :=
  let '(goTypeStr, _, _) := bigqueryFieldTypeToGoType (Type_ schema) in
  tab ++ capitalizeInitial (Name schema) ++ " " ++ goTypeStr
    ++ " `bigquery:" ++ dq ++ Name schema ++ dq ++ "`" ++ nl.

Definition fieldPkg (schema : FieldSchema) : string :=
  let '(_, pkg, _) := bigqueryFieldTypeToGoType (Type_ schema) in pkg.

Definition mapsOk (schema : FieldSchema) : Prop :=
  snd (bigqueryFieldTypeToGoType (Type_ schema)) = None.

(** Concatenation of a list of texts. *)
Definition sconcat (l : list string) : string := fold_right String.append "" l.

(** The import block the spec prescribes for a list of distinct
    references, by its cardinality. *)
Definition importBlock (refs : list string) : string :=
  match refs with
  | [] => ""
  | [pkg] => singleImport pkg ++ nl
  | _ => "import (" ++ nl ++ sconcat (map groupedImportLine refs)
           ++ ")" ++ nl ++ nl
  end.

(** What the [for _, table := range tables] loop of [Generate] keeps:
    the log lines of the skipped tables, the struct texts and the
    import lists of the others, in table order. *)
Definition skipLogs (dumpTable : Table -> string) (tables : list Table) : list string :=
  flat_map (fun table =>
    match generateTableSchemaCode dumpTable table with
    | (_, _, Some err) => [("generateTableSchemaCode: " ++ err ++ nl)%string]
    | _ => []
    end) tables.

Definition keptStructs (dumpTable : Table -> string) (tables : list Table) : list string :=
  flat_map (fun table =>
    match generateTableSchemaCode dumpTable table with
    | (structCode, _, None) => [structCode]
    | _ => []
    end) tables.

Definition keptPkgs (dumpTable : Table -> string) (tables : list Table) : list string :=
  flat_map (fun table =>
    match generateTableSchemaCode dumpTable table with
    | (_, pkgs, None) => pkgs
    | _ => []
    end) tables.

(** The document text [Generate] hands to [format.Source]. *)
Definition assembledCode (dumpTable : Table -> string)
    (iter : gset string -> list string) (tables : list Table) : string :=
  head ++ generateImportPackagesCode iter (keptPkgs dumpTable tables)
  ++ sconcat (keptStructs dumpTable tables).

(** A client whose dataset lists exactly [tables]. *)
Definition listingClient (tables : list Table) : Client :=
  fun _ => map NextTable tables.

(** Example tables. *)
Definition ordersTable : Table :=
  mkTable "p" "d" "orders" (inr (mkTableMetadata "" "p:d.orders"
    [mkFieldSchema "id" IntegerFieldType; mkFieldSchema "total" FloatFieldType])).

Definition eventsTable : Table :=
  mkTable "p" "d" "events" (inr (mkTableMetadata "" "p:d.events"
    [mkFieldSchema "ts" TimestampFieldType])).

Definition nestedTable : Table :=
  mkTable "p" "d" "nested" (inr (mkTableMetadata "" "p:d.nested"
    [mkFieldSchema "id" IntegerFieldType; mkFieldSchema "r" RecordFieldType])).

Definition missingTable : Table :=
  mkTable "p" "d" "missing" (inl "googleapi: Error 404: Not found").

(** An external formatter that accepts its input unchanged. *)
Definition acceptAll (s : string) : string * option error := (s, None).

(** An example invocation: flags for project, dataset and key file, no
    environment, and effects that succeed. *)
Definition exampleOptions : Options := mkOptions "p" "d" "key.json" "".
Definition emptyEnv (_ : string) : string := "".
Definition okSetenv (_ _ : string) : option error := None.
Definition okWriteFile (_ _ : string) : option error := None.
Definition exampleNewClient (_ : string -> string) (_ : string) : Client * option error :=
  (listingClient [ordersTable; eventsTable], None).

(** ** String lemmas *)

Lemma sapp_assoc (a b c : string) : (a ++ b) ++ c = a ++ (b ++ c).
Proof.
  induction a as [|x a IH]; [reflexivity | exact (f_equal (String x) IH)].
Qed.

Lemma sapp_nil_r (a : string) : a ++ "" = a.
Proof.
  induction a as [|x a IH]; [reflexivity | exact (f_equal (String x) IH)].
Qed.


(** ** The field-type mapper *)

(** Claim C1: every supported semantic type maps, without error, to
    the fixed (Go type, import path) pair of the spec's table. *)
Theorem bigqueryFieldTypeToGoType_supported :
  bigqueryFieldTypeToGoType StringFieldType = ("string", "", None) /\
  bigqueryFieldTypeToGoType GeographyFieldType = ("string", "", None) /\
  bigqueryFieldTypeToGoType BytesFieldType = ("[]uint8", "", None) /\
  bigqueryFieldTypeToGoType IntegerFieldType = ("int64", "", None) /\
  bigqueryFieldTypeToGoType FloatFieldType = ("float64", "", None) /\
  bigqueryFieldTypeToGoType BooleanFieldType = ("bool", "", None) /\
  bigqueryFieldTypeToGoType TimestampFieldType = ("time.Time", "time", None) /\
  bigqueryFieldTypeToGoType DateFieldType
    = ("civil.Date", "cloud.google.com/go/civil", None) /\
  bigqueryFieldTypeToGoType TimeFieldType
    = ("civil.Time", "cloud.google.com/go/civil", None) /\
  bigqueryFieldTypeToGoType DateTimeFieldType
    = ("civil.DateTime", "cloud.google.com/go/civil", None) /\
  bigqueryFieldTypeToGoType NumericFieldType = ("*big.Rat", "math/big", None).
Proof. repeat split; vm_compute; reflexivity. Qed.

Ltac case_eqb :=
  repeat match goal with
         | |- context [String.eqb ?a ?b] =>
             destruct (String.eqb_spec a b); subst
         end.

(** Claim C2: the record type and every type outside the supported
    enumeration give an error naming the type, with an empty Go type
    and an empty import path. *)
Theorem bigqueryFieldTypeToGoType_unsupported (t : FieldType) :
  t = RecordFieldType \/ ~ In t supportedFieldTypes ->
  bigqueryFieldTypeToGoType t
  = ("", "", Some ("bigquery.FieldType not supported. bigquery.FieldType=" ++ t)).
Proof.
  intros Ht. unfold bigqueryFieldTypeToGoType.
  destruct Ht as [-> | Hnin]; [vm_compute; reflexivity |].
  unfold supportedFieldTypes in Hnin; simpl in Hnin.
  case_eqb; simpl in *; try reflexivity; tauto.
Qed.

Lemma bigqueryFieldTypeToGoType_unsupported_witness :
  ("unknownFieldType" = RecordFieldType \/ ~ In "unknownFieldType" supportedFieldTypes) /\
  bigqueryFieldTypeToGoType "unknownFieldType"
  = ("", "", Some ("bigquery.FieldType not supported. bigquery.FieldType="
                   ++ "unknownFieldType")).
Proof.
  assert (H : "unknownFieldType" = RecordFieldType \/
              ~ In "unknownFieldType" supportedFieldTypes).
  { right. unfold supportedFieldTypes; simpl.
    intros Hin; repeat destruct Hin as [Hin | Hin]; discriminate Hin || exact Hin. }
  split; [exact H | apply (bigqueryFieldTypeToGoType_unsupported _ H)].
Defined.

(** ** capitalizeInitial *)

(** The parts of the capitalize contract that hold for every input
    whose first byte is ASCII. *)
Lemma capitalizeInitial_empty : capitalizeInitial "" = "".
Proof. reflexivity. Qed.

Lemma capitalizeInitial_a : capitalizeInitial "a" = "A".
Proof. reflexivity. Qed.

(** [capitalizeInitial] is idempotent on strings whose first byte is
    ASCII. *)
Lemma capitalizeInitial_idem_ascii (c : ascii) (s : string) :
  nat_of_ascii c < 128 ->
  capitalizeInitial (capitalizeInitial (String c s)) = capitalizeInitial (String c s).
Proof.
  intros Hc.
  destruct c as [[] [] [] [] [] [] [] []];
    (vm_compute in Hc; lia) || reflexivity.
Qed.

(** Claim C8 (failing input): for the two-byte UTF-8 string "é"
    (C3 A9) the first byte alone is not valid UTF-8, so
    [strings.ToUpper(s[:1])] yields U+FFFD: "é" is not upper-cased,
    "É" (C3 89) is not left unchanged, and a second application
    changes the result again. *)
Theorem capitalizeInitial_non_ascii :
  let e_acute := String (ascii_of_nat 195) (String (ascii_of_nat 169) EmptyString) in
  let E_acute := String (ascii_of_nat 195) (String (ascii_of_nat 137) EmptyString) in
  capitalizeInitial e_acute = runeError_utf8 ++ String (ascii_of_nat 169) EmptyString /\
  capitalizeInitial E_acute <> E_acute /\
  capitalizeInitial (capitalizeInitial e_acute) <> capitalizeInitial e_acute.
Proof.
  simpl. split; [reflexivity |]. split; vm_compute; discriminate.
Qed.

(** ** getOptOrEnvOrDefault *)

(** Claim C10: an empty option key is an error; otherwise the option
    value, then the environment value, then the default value is
    returned, the first that is non-empty; only when all three are
    empty is the result an error, with the empty string. *)
Theorem getOptOrEnvOrDefault_precedence (getenv : string -> string)
    (optKey optValue envKey defaultValue : string) :
  let r := getOptOrEnvOrDefault getenv optKey optValue envKey defaultValue in
  (optKey = "" -> exists e, r = ("", Some e)) /\
  (optKey <> "" -> optValue <> "" -> r = (optValue, None)) /\
  (optKey <> "" -> optValue = "" -> getenv envKey <> "" ->
     r = (getenv envKey, None)) /\
  (optKey <> "" -> optValue = "" -> getenv envKey = "" -> defaultValue <> "" ->
     r = (defaultValue, None)) /\
  (optKey <> "" ->
     (snd r <> None <-> optValue = "" /\ getenv envKey = "" /\ defaultValue = "")) /\
  (snd r <> None -> fst r = "").
Proof.
  unfold getOptOrEnvOrDefault.
  case_eqb; simpl; repeat split; intros; try congruence; try tauto; eauto;
    intuition congruence.
Qed.

(** ** generateTableSchemaCode *)

Lemma generateFieldsCode_ok (schemas : list FieldSchema) (code : string)
    (pkgs : list string) :
  Forall mapsOk schemas ->
  generateFieldsCode schemas code pkgs
  = (code ++ sconcat (map fieldLine schemas),
     (pkgs ++ List.filter (fun p => negb (String.eqb p "")) (map fieldPkg schemas))%list,
     None).
Proof.
  revert code pkgs.
  induction schemas as [|schema rest IH]; intros code pkgs Hok.
  - simpl. rewrite sapp_nil_r, app_nil_r. reflexivity.
  - inversion Hok as [|? ? Hs Hrest]; subst. unfold mapsOk in Hs.
    change (sconcat (map fieldLine (schema :: rest)))
      with (fieldLine schema ++ sconcat (map fieldLine rest)).
    change (map fieldPkg (schema :: rest)) with (fieldPkg schema :: map fieldPkg rest).
    cbn [generateFieldsCode].
    destruct (bigqueryFieldTypeToGoType (Type_ schema)) as [[goTypeStr pkg] err] eqn:E;
      simpl in Hs; subst err.
    assert (Hl : fieldLine schema
                 = tab ++ capitalizeInitial (Name schema) ++ " " ++ goTypeStr
                     ++ " `bigquery:" ++ dq ++ Name schema ++ dq ++ "`" ++ nl)
      by (unfold fieldLine; rewrite E; reflexivity).
    assert (Hp : fieldPkg schema = pkg) by (unfold fieldPkg; rewrite E; reflexivity).
    rewrite Hl, Hp, (IH _ _ Hrest).
    repeat rewrite sapp_assoc.
    destruct (String.eqb_spec pkg ""); cbn [List.filter negb].
    + rewrite e. reflexivity.
    + cbn [List.filter]. rewrite (proj2 (String.eqb_neq _ _) n). cbn [negb].
      rewrite <- app_assoc. reflexivity.
Qed.

Lemma generateFieldsCode_fail (pre : list FieldSchema) (schema : FieldSchema)
    (post : list FieldSchema) (e : error) (code : string) (pkgs : list string) :
  Forall mapsOk pre ->
  snd (bigqueryFieldTypeToGoType (Type_ schema)) = Some e ->
  generateFieldsCode (pre ++ schema :: post) code pkgs
  = ("", [], Some (wrap "bigqueryFieldTypeToGoType" e)).
Proof.
  revert code pkgs.
  induction pre as [|s0 pre IH]; intros code pkgs Hok He; simpl.
  - destruct (bigqueryFieldTypeToGoType (Type_ schema)) as [[g p] err];
      simpl in He; subst err. reflexivity.
  - inversion Hok as [|? ? Hs Hrest]; subst. unfold mapsOk in Hs.
    destruct (bigqueryFieldTypeToGoType (Type_ s0)) as [[g p] err];
      simpl in Hs; subst err.
    apply IH; assumption.
Qed.

Lemma first_failing (l : list FieldSchema) :
  Exists (fun c => ~ mapsOk c) l ->
  exists pre c post e, l = (pre ++ c :: post)%list /\ Forall mapsOk pre /\
    snd (bigqueryFieldTypeToGoType (Type_ c)) = Some e.
Proof.
  induction l as [|c rest IH]; intros Hex; [inversion Hex |].
  unfold mapsOk at 1.
  destruct (snd (bigqueryFieldTypeToGoType (Type_ c))) as [e|] eqn:Hc.
  - exists [], c, rest, e. repeat split; [constructor | exact Hc].
  - inversion Hex as [? ? Hn | ? ? Hrest]; subst; [contradiction |].
    destruct (IH Hrest) as (pre & c' & post & e & -> & Hpre & He).
    exists (c :: pre), c', post, e. repeat split; [| exact He].
    constructor; [exact Hc | exact Hpre].
Qed.

(** Claim C3: for a table with a non-empty id whose metadata is [md]
    and whose columns all map, the struct text is the doc comment
    naming the capitalized struct and the full id, the description
    comment (even when empty), the struct opening, one field line per
    column in column order (capitalized name, Go type, tag with the
    original name) and the closing brace; the import list holds the
    non-empty import paths in column order. *)
Theorem generateTableSchemaCode_ok (dumpTable : Table -> string)
    (table : Table) (md : TableMetadata) :
  TableID table <> "" ->
  Metadata table = inr md ->
  Forall mapsOk (Schema md) ->
  generateTableSchemaCode dumpTable table
  = ("// " ++ capitalizeInitial (TableID table) ++ " is BigQuery Table `"
       ++ FullID md ++ "` schema struct." ++ nl
     ++ "// Description: " ++ Description md ++ nl
     ++ "type " ++ capitalizeInitial (TableID table) ++ " struct {" ++ nl
     ++ sconcat (map fieldLine (Schema md))
     ++ "}" ++ nl,
     List.filter (fun p => negb (String.eqb p "")) (map fieldPkg (Schema md)),
     None).
Proof.
  intros Hid Hmd Hok. unfold generateTableSchemaCode.
  destruct (String.eqb_spec (TableID table) ""); [contradiction |].
  rewrite Hmd, (generateFieldsCode_ok _ _ _ Hok). simpl.
  unfold structHeader. repeat rewrite sapp_assoc. reflexivity.
Qed.

Lemma generateTableSchemaCode_ok_witness :
  let md := mkTableMetadata "" "p:d.orders"
              [mkFieldSchema "id" IntegerFieldType; mkFieldSchema "ts" TimestampFieldType] in
  let table := mkTable "p" "d" "orders" (inr md) in
  (TableID table <> "" /\ Metadata table = inr md /\ Forall mapsOk (Schema md)) /\
  generateTableSchemaCode (fun _ => "") table
  = ("// " ++ capitalizeInitial (TableID table) ++ " is BigQuery Table `"
       ++ FullID md ++ "` schema struct." ++ nl
     ++ "// Description: " ++ Description md ++ nl
     ++ "type " ++ capitalizeInitial (TableID table) ++ " struct {" ++ nl
     ++ sconcat (map fieldLine (Schema md))
     ++ "}" ++ nl,
     List.filter (fun p => negb (String.eqb p "")) (map fieldPkg (Schema md)),
     None).
Proof.
  intros md table.
  assert (H1 : TableID table <> "") by discriminate.
  assert (H2 : Metadata table = inr md) by reflexivity.
  assert (H3 : Forall mapsOk (Schema md)).
  { repeat constructor. }
  split; [split; [exact H1 | split; [exact H2 | exact H3]] |].
  apply (generateTableSchemaCode_ok _ table md H1 H2 H3).
Defined.

(** Claim C7: when the mapper fails for a column (the first failing
    one, [schema] below), struct generation fails with that error
    wrapped with context, and the struct text and import list are
    empty. *)
Theorem generateTableSchemaCode_mapper_error (dumpTable : Table -> string)
    (table : Table) (md : TableMetadata) :
  TableID table <> "" ->
  Metadata table = inr md ->
  Exists (fun c => ~ mapsOk c) (Schema md) ->
  exists pre schema post e,
    Schema md = (pre ++ schema :: post)%list /\ Forall mapsOk pre /\
    snd (bigqueryFieldTypeToGoType (Type_ schema)) = Some e /\
    generateTableSchemaCode dumpTable table
    = ("", [], Some (wrap "bigqueryFieldTypeToGoType" e)).
Proof.
  intros Hid Hmd Hex.
  destruct (first_failing _ Hex) as (pre & schema & post & e & Hs & Hpre & He).
  exists pre, schema, post, e. repeat split; try assumption.
  unfold generateTableSchemaCode.
  destruct (String.eqb_spec (TableID table) ""); [contradiction |].
  rewrite Hmd, Hs, (generateFieldsCode_fail _ _ _ _ _ _ Hpre He). reflexivity.
Qed.

Lemma generateTableSchemaCode_mapper_error_witness :
  let md := mkTableMetadata "" "p:d.orders"
              [mkFieldSchema "id" IntegerFieldType; mkFieldSchema "ts" TimestampFieldType;
               mkFieldSchema "r" RecordFieldType; mkFieldSchema "n" NumericFieldType] in
  let table := mkTable "p" "d" "orders" (inr md) in
  (TableID table <> "" /\ Metadata table = inr md /\
   Exists (fun c => ~ mapsOk c) (Schema md)) /\
  exists pre schema post e,
    Schema md = (pre ++ schema :: post)%list /\ Forall mapsOk pre /\
    snd (bigqueryFieldTypeToGoType (Type_ schema)) = Some e /\
    generateTableSchemaCode (fun _ => "") table
    = ("", [], Some (wrap "bigqueryFieldTypeToGoType" e)).
Proof.
  intros md table.
  assert (H1 : TableID table <> "") by discriminate.
  assert (H2 : Metadata table = inr md) by reflexivity.
  assert (H3 : Exists (fun c => ~ mapsOk c) (Schema md)).
  { apply Exists_cons_tl, Exists_cons_tl, Exists_cons_hd.
    unfold mapsOk; simpl; discriminate. }
  split; [split; [exact H1 | split; [exact H2 | exact H3]] |].
  apply (generateTableSchemaCode_mapper_error _ table md H1 H2 H3).
Defined.

(** Claim C9: an empty table id makes struct generation fail with an
    error whose message contains the [%#v] dump of the table, and the
    struct text and import list are empty. *)
Theorem generateTableSchemaCode_empty_id (dumpTable : Table -> string)
    (table : Table) :
  TableID table = "" ->
  generateTableSchemaCode dumpTable table
  = ("", [], Some ("*bigquery.Table.TableID is empty. *bigquery.Table struct dump: "
                   ++ dumpTable table)).
Proof. intros Hid. unfold generateTableSchemaCode. rewrite Hid. reflexivity. Qed.

Lemma generateTableSchemaCode_empty_id_witness :
  let table := mkTable "p" "d" "" (inl "notFound") in
  TableID table = "" /\
  generateTableSchemaCode (fun _ => "&bigquery.Table{}") table
  = ("", [], Some ("*bigquery.Table.TableID is empty. *bigquery.Table struct dump: "
                   ++ "&bigquery.Table{}")).
Proof.
  intros table.
  assert (H : TableID table = "") by reflexivity.
  split; [exact H | apply (generateTableSchemaCode_empty_id (fun _ => "&bigquery.Table{}") table H)].
Defined.

(** ** generateImportPackagesCode *)

Lemma importPackagesUniq_fold (l : list string) (m : gset string) (q : string) :
  q ∈ fold_left (fun (m : gset string) pkg => {[pkg]} ∪ m) l m <-> q ∈ m \/ In q l.
Proof.
  revert m. induction l as [|p l IH]; intros m; simpl.
  - tauto.
  - rewrite IH. set_solver.
Qed.

Lemma importPackagesUniq_elem (l : list string) (q : string) :
  q ∈ importPackagesUniq l <-> In q l.
Proof. unfold importPackagesUniq. rewrite importPackagesUniq_fold. set_solver. Qed.

Lemma fold_grouped (l : list string) (acc : string) :
  fold_left (fun acc pkg => acc ++ groupedImportLine pkg) l acc
  = acc ++ sconcat (map groupedImportLine l).
Proof.
  revert acc. induction l as [|p l IH]; intros acc; simpl.
  - now rewrite sapp_nil_r.
  - rewrite IH. now rewrite sapp_assoc.
Qed.

(** Claim C4: whatever order Go's map iteration takes, the import
    block is determined by the deduplicated references: nothing for
    none, a single import statement and a blank line for one, a grouped
    block with one line per reference and a blank line for two or more;
    each distinct reference is listed exactly once. *)
Theorem generateImportPackagesCode_by_cardinality
    (iter : gset string -> list string) (importPackages : list string) :
  Permutation (iter (importPackagesUniq importPackages))
              (elements (importPackagesUniq importPackages)) ->
  exists refs,
    List.NoDup refs /\
    (forall q, In q refs <-> In q importPackages) /\
    (forall q, In q importPackages -> count_occ string_dec refs q = 1) /\
    generateImportPackagesCode iter importPackages = importBlock refs.
Proof.
  intros Hperm.
  set (uniq := importPackagesUniq importPackages) in *.
  assert (Hnd : List.NoDup (iter uniq)).
  { apply (Permutation_NoDup (Permutation_sym Hperm)).
    apply NoDup_ListNoDup, NoDup_elements. }
  assert (Hin : forall q, In q (iter uniq) <-> In q importPackages).
  { intros q. split; intros Hq.
    - apply (Permutation_in _ Hperm) in Hq.
      apply importPackagesUniq_elem.
      apply elem_of_elements, list_elem_of_In, Hq.
    - apply (Permutation_in _ (Permutation_sym Hperm)).
      apply list_elem_of_In, elem_of_elements.
      apply importPackagesUniq_elem, Hq. }
  exists (iter uniq). split; [exact Hnd | split; [exact Hin | split]].
  - intros q Hq. apply (proj1 (NoDup_count_occ' string_dec _) Hnd).
    apply Hin, Hq.
  - unfold generateImportPackagesCode. fold uniq.
    change (size uniq) with (length (elements uniq)).
    rewrite <- (Permutation_length Hperm).
    destruct (iter uniq) as [|p [|p' rest]] eqn:Ho; simpl.
    + reflexivity.
    + reflexivity.
    + rewrite fold_grouped. simpl. now repeat rewrite sapp_assoc.
Qed.

Lemma generateImportPackagesCode_by_cardinality_witness :
  Permutation (elements (importPackagesUniq ["time"; "math/big"; "time"]))
              (elements (importPackagesUniq ["time"; "math/big"; "time"])) /\
  exists refs,
    List.NoDup refs /\
    (forall q, In q refs <-> In q ["time"; "math/big"; "time"]) /\
    (forall q, In q ["time"; "math/big"; "time"] -> count_occ string_dec refs q = 1) /\
    generateImportPackagesCode elements ["time"; "math/big"; "time"] = importBlock refs.
Proof.
  split; [apply Permutation_refl |].
  apply (generateImportPackagesCode_by_cardinality elements).
  apply Permutation_refl.
Defined.

(** ** Generate *)

Lemma getAllTables_loop_tables (tables acc : list Table) :
  getAllTables_loop (map NextTable tables) acc = ((acc ++ tables)%list, None).
Proof.
  revert acc. induction tables as [|t tables IH]; intros acc; simpl.
  - now rewrite app_nil_r.
  - rewrite IH. now rewrite <- app_assoc.
Qed.

Lemma getAllTables_loop_error (tables : list Table) (e : error)
    (rest : list NextResult) (acc : list Table) :
  getAllTables_loop (map NextTable tables ++ NextErr e :: rest)%list acc
  = ([], Some (wrap "tableIterator.Next" e)).
Proof.
  revert acc. induction tables as [|t tables IH]; intros acc; simpl;
    [reflexivity | apply IH].
Qed.

Lemma generate_loop_closed (dumpTable : Table -> string) (tables : list Table)
    (logs : list string) (tail : string) (importPackages : list string) :
  generate_loop dumpTable tables logs tail importPackages
  = ((logs ++ skipLogs dumpTable tables)%list,
     tail ++ sconcat (keptStructs dumpTable tables),
     (importPackages ++ keptPkgs dumpTable tables)%list).
Proof.
  revert logs tail importPackages.
  induction tables as [|t tables IH]; intros logs tail importPackages.
  - simpl. now rewrite !app_nil_r, sapp_nil_r.
  - cbn [generate_loop]. unfold skipLogs, keptStructs, keptPkgs. cbn [flat_map].
    fold (skipLogs dumpTable tables) (keptStructs dumpTable tables)
         (keptPkgs dumpTable tables).
    destruct (generateTableSchemaCode dumpTable t) as [[c pkgs] [err|]].
    + rewrite IH. simpl. now rewrite <- app_assoc.
    + rewrite IH. simpl. rewrite sapp_assoc.
      destruct (Nat.ltb_spec 0 (length pkgs)).
      * now rewrite <- app_assoc.
      * destruct pkgs; [reflexivity | simpl in *; lia].
Qed.

Lemma Generate_listed (dumpTable : Table -> string) (iter : gset string -> list string)
    (formatSource importsProcess : string -> string * option error)
    (client : Client) (dataset : string) (tables : list Table) :
  client dataset = map NextTable tables ->
  Generate dumpTable iter formatSource importsProcess client dataset
  = (skipLogs dumpTable tables,
     match formatSource (assembledCode dumpTable iter tables) with
     | (_, Some err) => ("", Some (wrap "format.Source" err))
     | (genFmt, None) =>
         match importsProcess genFmt with
         | (_, Some err) => ("", Some (wrap "imports.Process" err))
         | (genImports, None) => (genImports, None)
         end
     end).
Proof.
  intros Hc. unfold Generate, getAllTables. rewrite Hc, getAllTables_loop_tables.
  simpl. rewrite generate_loop_closed.
  assert (Ha : head ++ generateImportPackagesCode iter ([] ++ keptPkgs dumpTable tables)%list
               ++ "" ++ sconcat (keptStructs dumpTable tables)
               = assembledCode dumpTable iter tables) by reflexivity.
  rewrite Ha.
  destruct (formatSource (assembledCode dumpTable iter tables)) as [genFmt [err|]];
    [reflexivity |].
  destruct (importsProcess genFmt) as [genImports [err|]]; reflexivity.
Qed.

Lemma flat_map_skip {B : Type} (f : Table -> list B) (pre post : list Table) (bad : Table) :
  flat_map f (pre ++ bad :: post)%list = (flat_map f pre ++ f bad ++ flat_map f post)%list.
Proof. rewrite flat_map_app. reflexivity. Qed.

(** Shared by claims C5 and C6: a table whose struct generation fails
    adds one log line and is otherwise absent from the run. *)
Lemma Generate_skip (dumpTable : Table -> string) (iter : gset string -> list string)
    (formatSource importsProcess : string -> string * option error)
    (client : Client) (dataset : string) (pre post : list Table) (bad : Table)
    (e : error) :
  client dataset = map NextTable (pre ++ bad :: post) ->
  snd (generateTableSchemaCode dumpTable bad) = Some e ->
  fst (Generate dumpTable iter formatSource importsProcess client dataset)
  = (skipLogs dumpTable pre ++ [("generateTableSchemaCode: " ++ e ++ nl)%string]
     ++ skipLogs dumpTable post)%list /\
  fst (Generate dumpTable iter formatSource importsProcess
         (listingClient (pre ++ post)) dataset)
  = (skipLogs dumpTable pre ++ skipLogs dumpTable post)%list /\
  snd (Generate dumpTable iter formatSource importsProcess client dataset)
  = snd (Generate dumpTable iter formatSource importsProcess
           (listingClient (pre ++ post)) dataset).
Proof.
  intros Hc He.
  rewrite (Generate_listed _ _ _ _ _ _ _ Hc).
  rewrite (Generate_listed _ _ _ _ (listingClient (pre ++ post)) dataset (pre ++ post))
    by reflexivity.
  assert (Hs : forall B (f : Table -> list B),
             f bad = [] -> flat_map f (pre ++ bad :: post)%list = flat_map f (pre ++ post)%list).
  { intros B f Hf. rewrite flat_map_skip, Hf, flat_map_app. reflexivity. }
  destruct (generateTableSchemaCode dumpTable bad) as [[c pkgs] err] eqn:Eb.
  simpl in He. subst err.
  assert (Ha : assembledCode dumpTable iter (pre ++ bad :: post)
               = assembledCode dumpTable iter (pre ++ post)).
  { unfold assembledCode, keptPkgs, keptStructs.
    rewrite !Hs by (rewrite Eb; reflexivity). reflexivity. }
  cbn [fst snd]. rewrite Ha. split; [| split; [| reflexivity]].
  - unfold skipLogs. rewrite flat_map_skip, Eb. reflexivity.
  - unfold skipLogs. rewrite flat_map_app. reflexivity.
Qed.

Lemma sconcat_in (l : list string) (c : string) :
  In c l -> exists u v, sconcat l = u ++ c ++ v.
Proof.
  induction l as [|x l IH]; intros Hin; [inversion Hin |].
  destruct Hin as [-> | Hin].
  - exists "", (sconcat l). reflexivity.
  - destruct (IH Hin) as (u & v & Huv). exists (x ++ u), v.
    simpl. rewrite Huv, sapp_assoc. reflexivity.
Qed.

(** Claim C5: a table whose struct generation fails (an unsupported
    column, for instance) is logged and left out, and nothing else
    changes: the run gives the same result as on the listing without
    that table; the text handed to the formatter still holds the struct
    of every other table that generates, and when the formatter and
    the import resolver accept it the run succeeds. *)
Theorem Generate_skips_failed_table (dumpTable : Table -> string)
    (iter : gset string -> list string)
    (formatSource importsProcess : string -> string * option error)
    (client : Client) (dataset : string) (pre post : list Table) (bad : Table)
    (e : error) :
  client dataset = map NextTable (pre ++ bad :: post) ->
  snd (generateTableSchemaCode dumpTable bad) = Some e ->
  let G := Generate dumpTable iter formatSource importsProcess client dataset in
  let G' := Generate dumpTable iter formatSource importsProcess
              (listingClient (pre ++ post)) dataset in
  (exists L1 L2, fst G = (L1 ++ [("generateTableSchemaCode: " ++ e ++ nl)%string] ++ L2)%list
                 /\ fst G' = (L1 ++ L2)%list) /\
  snd G = snd G' /\
  exists raw,
    (forall t c pkgs, In t (pre ++ post) ->
       generateTableSchemaCode dumpTable t = (c, pkgs, None) ->
       exists u v, raw = u ++ c ++ v) /\
    (forall x y, formatSource raw = (x, None) -> importsProcess x = (y, None) ->
       snd G = (y, None)).
Proof.
  intros Hc He G G'.
  destruct (Generate_skip dumpTable iter formatSource importsProcess client dataset
              pre post bad e Hc He) as (H1 & H2 & H3).
  split; [exists (skipLogs dumpTable pre), (skipLogs dumpTable post); split; assumption |].
  split; [exact H3 |].
  exists (assembledCode dumpTable iter (pre ++ post)). split.
  - intros t c pkgs Hin Ht.
    assert (Hk : In c (keptStructs dumpTable (pre ++ post))).
    { unfold keptStructs. apply in_flat_map. exists t. rewrite Ht. split; [exact Hin | left; reflexivity]. }
    destruct (sconcat_in _ _ Hk) as (u & v & Huv).
    exists (head ++ generateImportPackagesCode iter (keptPkgs dumpTable (pre ++ post)) ++ u), v.
    unfold assembledCode. rewrite Huv. now repeat rewrite sapp_assoc.
  - intros x y Hf Hi. unfold G. rewrite H3.
    rewrite (Generate_listed _ _ _ _ (listingClient (pre ++ post)) dataset (pre ++ post))
      by reflexivity.
    simpl. rewrite Hf, Hi. reflexivity.
Qed.

Lemma Generate_skips_failed_table_witness :
  let dumpTable := fun _ : Table => "" in
  let client := listingClient [ordersTable; nestedTable; eventsTable] in
  let e := wrap "bigqueryFieldTypeToGoType"
             ("bigquery.FieldType not supported. bigquery.FieldType=" ++ RecordFieldType) in
  (client "d" = map NextTable ([ordersTable] ++ nestedTable :: [eventsTable]) /\
   snd (generateTableSchemaCode dumpTable nestedTable) = Some e) /\
  let G := Generate dumpTable elements acceptAll acceptAll client "d" in
  let G' := Generate dumpTable elements acceptAll acceptAll
              (listingClient ([ordersTable] ++ [eventsTable])) "d" in
  (exists L1 L2, fst G = (L1 ++ [("generateTableSchemaCode: " ++ e ++ nl)%string] ++ L2)%list
                 /\ fst G' = (L1 ++ L2)%list) /\
  snd G = snd G' /\
  exists raw,
    (forall t c pkgs, In t ([ordersTable] ++ [eventsTable]) ->
       generateTableSchemaCode dumpTable t = (c, pkgs, None) ->
       exists u v, raw = u ++ c ++ v) /\
    (forall x y, acceptAll raw = (x, None) -> acceptAll x = (y, None) ->
       snd G = (y, None)).
Proof.
  intros dumpTable client e.
  assert (H1 : client "d" = map NextTable ([ordersTable] ++ nestedTable :: [eventsTable]))
    by reflexivity.
  assert (H2 : snd (generateTableSchemaCode dumpTable nestedTable) = Some e)
    by (vm_compute; reflexivity).
  split; [split; [exact H1 | exact H2] |].
  exact (Generate_skips_failed_table dumpTable elements acceptAll acceptAll client "d"
           [ordersTable] [eventsTable] nestedTable e H1 H2).
Defined.

(** Claim C6 (counterexample): a failed metadata fetch for one table
    is not fatal; with a formatter and a resolver that accept the
    document, [Generate] returns no error, and the failure only shows
    as a log line. *)
Lemma Generate_metadata_error_not_fatal :
  let G := Generate (fun _ => "") elements acceptAll acceptAll
             (listingClient [missingTable; ordersTable]) "d" in
  snd (snd G) = None /\
  fst G = [("generateTableSchemaCode: table.Metadata: googleapi: Error 404: Not found"
            ++ nl)%string].
Proof. vm_compute. split; reflexivity. Qed.

(** Claim C6 (amended): a table-enumeration failure, a formatter
    failure and an import-resolution failure are fatal: [Generate]
    returns the wrapped error and no document.  A failed metadata fetch
    for one table is handled like every per-table failure: it is logged
    and that table is skipped, and the run gives the result of the
    listing without that table. *)
Theorem Generate_external_errors (dumpTable : Table -> string)
    (iter : gset string -> list string)
    (formatSource importsProcess : string -> string * option error)
    (client : Client) (dataset : string) :
  let G := Generate dumpTable iter formatSource importsProcess client dataset in
  (forall tables e rest,
     client dataset = (map NextTable tables ++ NextErr e :: rest)%list ->
     G = ([], ("", Some (wrap "getAllTables" (wrap "tableIterator.Next" e))))) /\
  (forall tables x e,
     client dataset = map NextTable tables ->
     formatSource (assembledCode dumpTable iter tables) = (x, Some e) ->
     snd G = ("", Some (wrap "format.Source" e))) /\
  (forall tables x y e,
     client dataset = map NextTable tables ->
     formatSource (assembledCode dumpTable iter tables) = (x, None) ->
     importsProcess x = (y, Some e) ->
     snd G = ("", Some (wrap "imports.Process" e))) /\
  (forall pre bad post e,
     client dataset = map NextTable (pre ++ bad :: post) ->
     TableID bad <> "" -> Metadata bad = inl e ->
     fst G = (skipLogs dumpTable pre
              ++ [("generateTableSchemaCode: " ++ wrap "table.Metadata" e ++ nl)%string]
              ++ skipLogs dumpTable post)%list /\
     snd G = snd (Generate dumpTable iter formatSource importsProcess
                    (listingClient (pre ++ post)) dataset)).
Proof.
  intros G. split; [| split; [| split]].
  - intros tables e rest Hc. unfold G, Generate, getAllTables.
    rewrite Hc, getAllTables_loop_error. reflexivity.
  - intros tables x e Hc Hf. unfold G.
    rewrite (Generate_listed _ _ _ _ _ _ _ Hc), Hf. reflexivity.
  - intros tables x y e Hc Hf Hi. unfold G.
    rewrite (Generate_listed _ _ _ _ _ _ _ Hc), Hf. simpl. rewrite Hi. reflexivity.
  - intros pre bad post e Hc Hid Hmd.
    assert (He : snd (generateTableSchemaCode dumpTable bad)
                 = Some (wrap "table.Metadata" e)).
    { unfold generateTableSchemaCode.
      destruct (String.eqb_spec (TableID bad) ""); [contradiction |].
      rewrite Hmd. reflexivity. }
    destruct (Generate_skip dumpTable iter formatSource importsProcess client dataset
                pre post bad _ Hc He) as (H1 & _ & H3).
    split; assumption.
Qed.

(** * Further properties of the code *)

(** ** bigqueryFieldTypeToGoType *)

Lemma bigqueryFieldTypeToGoType_not_supported (t : FieldType) :
  ~ In t supportedFieldTypes -> snd (bigqueryFieldTypeToGoType t) <> None.
Proof.
  intros Hnin. unfold supportedFieldTypes in Hnin; simpl in Hnin.
  unfold bigqueryFieldTypeToGoType.
  case_eqb; simpl in *; try discriminate; tauto.
Qed.

(** The mapper succeeds exactly on the eleven supported types. *)
Theorem bigqueryFieldTypeToGoType_ok_iff (t : FieldType) :
  snd (bigqueryFieldTypeToGoType t) = None <-> In t supportedFieldTypes.
Proof.
  split.
  - intros Hok. destruct (in_dec string_dec t supportedFieldTypes) as [Hin | Hnin];
      [exact Hin |].
    exfalso. exact (bigqueryFieldTypeToGoType_not_supported t Hnin Hok).
  - unfold supportedFieldTypes. simpl.
    intros Hin; repeat destruct Hin as [<- | Hin]; try reflexivity; contradiction.
Qed.

(** The mapper asks for an import exactly for the time, date, time of
    day, date-time and numeric types. *)
Theorem bigqueryFieldTypeToGoType_import_iff (t : FieldType) :
  snd (fst (bigqueryFieldTypeToGoType t)) <> "" <->
  In t [TimestampFieldType; DateFieldType; TimeFieldType; DateTimeFieldType;
        NumericFieldType].
Proof.
  unfold bigqueryFieldTypeToGoType.
  case_eqb; simpl; split; intros H; try discriminate; try tauto;
    repeat destruct H as [H | H]; try discriminate H; try contradiction;
    subst; contradiction.
Qed.

(** ** capitalizeInitial *)

(** For a string whose first byte is ASCII, [capitalizeInitial] only
    rewrites that byte: the result has the same length, the same bytes
    after the first, and its first byte is ASCII and no lowercase
    letter (a lowercase letter becomes the matching uppercase one). *)
Theorem capitalizeInitial_ascii (c : ascii) (rest : string) :
  nat_of_ascii c < 128 ->
  exists d, capitalizeInitial (String c rest) = String d rest /\
    nat_of_ascii d < 128 /\
    ~ (97 <= nat_of_ascii d <= 122) /\
    (d = c \/ (97 <= nat_of_ascii c <= 122 /\ nat_of_ascii d + 32 = nat_of_ascii c)).
Proof.
  intros Hc.
  destruct c as [[] [] [] [] [] [] [] []];
    (vm_compute in Hc; lia) ||
    (eexists; split; [reflexivity |]; vm_compute; split; [lia | split; [lia |]];
     (left; reflexivity) || (right; split; lia)).
Qed.

Lemma capitalizeInitial_ascii_witness :
  nat_of_ascii "t"%char < 128 /\
  exists d, capitalizeInitial (String "t"%char "otal") = String d "otal" /\
    nat_of_ascii d < 128 /\
    ~ (97 <= nat_of_ascii d <= 122) /\
    (d = "t"%char \/ (97 <= nat_of_ascii "t"%char <= 122 /\
                      nat_of_ascii d + 32 = nat_of_ascii "t"%char)).
Proof.
  assert (H : nat_of_ascii "t"%char < 128) by (vm_compute; lia).
  split; [exact H | exact (capitalizeInitial_ascii "t"%char "otal" H)].
Defined.

(** [capitalizeInitial] is idempotent on strings whose first byte is
    ASCII. *)
Lemma capitalizeInitial_idem_ascii_witness :
  nat_of_ascii "o"%char < 128 /\
  capitalizeInitial (capitalizeInitial (String "o"%char "rders"))
  = capitalizeInitial (String "o"%char "rders").
Proof.
  assert (H : nat_of_ascii "o"%char < 128) by (vm_compute; lia).
  split; [exact H | exact (capitalizeInitial_idem_ascii "o"%char "rders" H)].
Defined.

(** ** generateTableSchemaCode *)

Lemma generateFieldsCode_ok_inv (schemas : list FieldSchema) (code : string)
    (pkgs : list string) :
  snd (generateFieldsCode schemas code pkgs) = None -> Forall mapsOk schemas.
Proof.
  revert code pkgs. induction schemas as [|schema rest IH]; intros code pkgs H;
    [constructor |].
  cbn [generateFieldsCode] in H.
  destruct (bigqueryFieldTypeToGoType (Type_ schema)) as [[g p] [err|]] eqn:E;
    [discriminate H |].
  constructor; [unfold mapsOk; rewrite E; reflexivity | exact (IH _ _ H)].
Qed.

(** Struct generation succeeds exactly when the table id is non-empty,
    the metadata fetch succeeds and every column's type maps. *)
Theorem generateTableSchemaCode_ok_iff (dumpTable : Table -> string) (table : Table) :
  snd (generateTableSchemaCode dumpTable table) = None <->
  TableID table <> "" /\
  exists md, Metadata table = inr md /\ Forall mapsOk (Schema md).
Proof.
  unfold generateTableSchemaCode.
  destruct (String.eqb_spec (TableID table) "") as [Hid | Hid].
  - split; [discriminate | intros [H _]; contradiction].
  - destruct (Metadata table) as [err | md].
    + split; [discriminate | intros [_ (md & H & _)]; discriminate H].
    + split.
      * intros H. split; [exact Hid |]. exists md. split; [reflexivity |].
        destruct (generateFieldsCode (Schema md) (structHeader (capitalizeInitial (TableID table)) md) [])
          as [[c p] err] eqn:E; simpl in H; [destruct err; [discriminate H |]].
        apply (generateFieldsCode_ok_inv _ (structHeader (capitalizeInitial (TableID table)) md) []).
        rewrite E. reflexivity.
      * intros [_ (md' & Hmd & Hok)]. injection Hmd as <-.
        rewrite (generateFieldsCode_ok _ _ _ Hok). reflexivity.
Qed.

Definition importPaths : list string := ["time"; "cloud.google.com/go/civil"; "math/big"].

Lemma bigqueryFieldTypeToGoType_pkg (t : FieldType) (g pkg : string) (err : option error) :
  bigqueryFieldTypeToGoType t = (g, pkg, err) -> pkg = "" \/ In pkg importPaths.
Proof.
  unfold bigqueryFieldTypeToGoType, importPaths.
  case_eqb; intros H; injection H as <- <- <-; simpl; tauto.
Qed.

Lemma generateFieldsCode_pkgs (schemas : list FieldSchema) (code : string)
    (pkgs : list string) :
  Forall (fun p => In p importPaths) pkgs ->
  Forall (fun p => In p importPaths) (snd (fst (generateFieldsCode schemas code pkgs))) /\
  length (snd (fst (generateFieldsCode schemas code pkgs))) <= length pkgs + length schemas.
Proof.
  revert code pkgs. induction schemas as [|schema rest IH]; intros code pkgs Hp.
  - simpl. split; [exact Hp | lia].
  - cbn [generateFieldsCode].
    destruct (bigqueryFieldTypeToGoType (Type_ schema)) as [[g pkg] [err|]] eqn:E.
    + simpl. split; [constructor | lia].
    + destruct (String.eqb_spec pkg "").
      * match goal with |- context [generateFieldsCode rest ?c _] =>
          destruct (IH c pkgs Hp) as [H1 H2] end.
        split; [exact H1 | simpl; lia].
      * destruct (bigqueryFieldTypeToGoType_pkg _ _ _ _ E) as [| Hin]; [contradiction |].
        assert (Hp' : Forall (fun p => In p importPaths) (pkgs ++ [pkg])%list).
        { apply Forall_app; split; [exact Hp | constructor; [exact Hin | constructor]]. }
        match goal with |- context [generateFieldsCode rest ?c _] =>
          destruct (IH c _ Hp') as [H1 H2] end.
        split; [exact H1 |].
        rewrite length_app in H2. simpl in *. lia.
Qed.

(** Every import path struct generation returns is one of "time",
    "cloud.google.com/go/civil" and "math/big", and there is at most one
    per column. *)
Theorem generateTableSchemaCode_imports (dumpTable : Table -> string) (table : Table) :
  let pkgs := snd (fst (generateTableSchemaCode dumpTable table)) in
  Forall (fun p => In p ["time"; "cloud.google.com/go/civil"; "math/big"]) pkgs /\
  length pkgs <= match Metadata table with
                 | inr md => length (Schema md)
                 | inl _ => 0
                 end.
Proof.
  unfold generateTableSchemaCode.
  destruct (String.eqb (TableID table) ""); [simpl; split; [constructor | lia] |].
  destruct (Metadata table) as [err | md]; [simpl; split; [constructor | lia] |].
  pose proof (generateFieldsCode_pkgs (Schema md)
                (structHeader (capitalizeInitial (TableID table)) md) [] ltac:(constructor))
    as [H1 H2].
  destruct (generateFieldsCode (Schema md) (structHeader (capitalizeInitial (TableID table)) md) [])
    as [[c p] [err|]]; simpl in *; split; first [constructor | lia | exact H1].
Qed.

(** ** generateImportPackagesCode *)



Lemma sapp_String_neq (a b : string) (c : ascii) : a ++ String c b <> "".
Proof. destruct a; discriminate. Qed.

(** The import block is empty exactly when there is no reference,
    whatever order the map iteration takes. *)
Theorem generateImportPackagesCode_empty_iff (iter : gset string -> list string)
    (importPackages : list string) :
  generateImportPackagesCode iter importPackages = "" <-> importPackages = [].
Proof.
  split.
  - intros H. destruct importPackages as [|p l]; [reflexivity | exfalso].
    assert (Hp : p ∈ importPackagesUniq (p :: l)).
    { apply importPackagesUniq_elem. left; reflexivity. }
    assert (Hs : size (importPackagesUniq (p :: l)) <> 0).
    { intros H0. apply size_empty_inv in H0. set_solver. }
    revert H. unfold generateImportPackagesCode.
    destruct (Nat.eqb_spec (size (importPackagesUniq (p :: l))) 0); [contradiction |].
    destruct (Nat.eqb (size (importPackagesUniq (p :: l))) 1).
    + apply sapp_String_neq.
    + rewrite fold_grouped. discriminate.
  - intros ->. reflexivity.
Qed.

(** ** getOptOrEnvOrDefault *)

(** A successful lookup never yields the empty string. *)
Theorem getOptOrEnvOrDefault_ok_nonempty (getenv : string -> string)
    (optKey optValue envKey defaultValue : string) :
  snd (getOptOrEnvOrDefault getenv optKey optValue envKey defaultValue) = None ->
  fst (getOptOrEnvOrDefault getenv optKey optValue envKey defaultValue) <> "".
Proof.
  unfold getOptOrEnvOrDefault. case_eqb; simpl; congruence.
Qed.

Lemma getOptOrEnvOrDefault_ok_nonempty_witness :
  snd (getOptOrEnvOrDefault (fun _ => "") "output" "" "OUTPUT_FILE"
         "bqtableschema.generated.go") = None /\
  fst (getOptOrEnvOrDefault (fun _ => "") "output" "" "OUTPUT_FILE"
         "bqtableschema.generated.go") <> "".
Proof.
  assert (H : snd (getOptOrEnvOrDefault (fun _ => "") "output" "" "OUTPUT_FILE"
                     "bqtableschema.generated.go") = None) by reflexivity.
  split; [exact H | exact (getOptOrEnvOrDefault_ok_nonempty _ _ _ _ _ H)].
Defined.

(** ** getAllTables *)

(** [getAllTables] returns the iterator's tables in order when it ends
    with [iterator.Done]; an error from the iterator, even after some
    tables, gives no tables and the error wrapped as
    "tableIterator.Next: ...". *)
Theorem getAllTables_results (client : Client) (datasetID : string) :
  (forall tables, client datasetID = map NextTable tables ->
     getAllTables client datasetID = (tables, None)) /\
  (forall tables e rest,
     client datasetID = (map NextTable tables ++ NextErr e :: rest)%list ->
     getAllTables client datasetID = ([], Some (wrap "tableIterator.Next" e))).
Proof.
  split.
  - intros tables Hc. unfold getAllTables. rewrite Hc, getAllTables_loop_tables.
    reflexivity.
  - intros tables e rest Hc. unfold getAllTables. rewrite Hc.
    apply getAllTables_loop_error.
Qed.

(** ** Generate *)

Definition structFails (dumpTable : Table -> string) (table : Table) : bool :=
  match snd (generateTableSchemaCode dumpTable table) with
  | Some _ => true
  | None => false
  end.

Lemma length_skipLogs (dumpTable : Table -> string) (tables : list Table) :
  length (skipLogs dumpTable tables) = length (List.filter (structFails dumpTable) tables).
Proof.
  induction tables as [|t tables IH]; [reflexivity |].
  unfold skipLogs in *. cbn [flat_map List.filter]. unfold structFails at 1.
  destruct (generateTableSchemaCode dumpTable t) as [[c p] [err|]]; simpl; lia.
Qed.

(** [Generate] logs exactly one line per listed table whose struct
    generation fails, and nothing else. *)
Theorem Generate_log_count (dumpTable : Table -> string)
    (iter : gset string -> list string)
    (formatSource importsProcess : string -> string * option error)
    (client : Client) (dataset : string) (tables : list Table) :
  client dataset = map NextTable tables ->
  length (fst (Generate dumpTable iter formatSource importsProcess client dataset))
  = length (List.filter (structFails dumpTable) tables).
Proof.
  intros Hc. rewrite (Generate_listed _ _ _ _ _ _ _ Hc). apply length_skipLogs.
Qed.

Lemma Generate_log_count_witness :
  listingClient [ordersTable; nestedTable; missingTable] "d"
  = map NextTable [ordersTable; nestedTable; missingTable] /\
  length (fst (Generate (fun _ => "") elements acceptAll acceptAll
                 (listingClient [ordersTable; nestedTable; missingTable]) "d"))
  = length (List.filter (structFails (fun _ => "")) [ordersTable; nestedTable; missingTable]).
Proof.
  assert (H : listingClient [ordersTable; nestedTable; missingTable] "d"
              = map NextTable [ordersTable; nestedTable; missingTable]) by reflexivity.
  split; [exact H | exact (Generate_log_count _ _ _ _ _ _ _ H)].
Defined.

Lemma assembledCode_all_fail (dumpTable : Table -> string)
    (iter : gset string -> list string) (tables : list Table) :
  Forall (fun t => structFails dumpTable t = true) tables ->
  assembledCode dumpTable iter tables = head.
Proof.
  intros Hf.
  assert (Hk : keptStructs dumpTable tables = [] /\ keptPkgs dumpTable tables = []).
  { induction Hf as [|t tables Ht _ [IH1 IH2]]; [split; reflexivity |].
    unfold keptStructs, keptPkgs in *. cbn [flat_map].
    unfold structFails in Ht.
    destruct (generateTableSchemaCode dumpTable t) as [[c p] [err|]];
      [| discriminate Ht]. simpl. rewrite IH1, IH2. split; reflexivity. }
  destruct Hk as [H1 H2]. unfold assembledCode. rewrite H1, H2.
  simpl. apply sapp_nil_r.
Qed.

(** When no listed table yields a struct (an empty dataset included),
    [Generate] hands the formatter the fixed header alone: the result
    is the formatted and import-resolved header, or the formatter's or
    the resolver's error. *)
Theorem Generate_no_struct (dumpTable : Table -> string)
    (iter : gset string -> list string)
    (formatSource importsProcess : string -> string * option error)
    (client : Client) (dataset : string) (tables : list Table) :
  client dataset = map NextTable tables ->
  Forall (fun t => structFails dumpTable t = true) tables ->
  snd (Generate dumpTable iter formatSource importsProcess client dataset)
  = match formatSource head with
    | (_, Some err) => ("", Some (wrap "format.Source" err))
    | (genFmt, None) =>
        match importsProcess genFmt with
        | (_, Some err) => ("", Some (wrap "imports.Process" err))
        | (genImports, None) => (genImports, None)
        end
    end.
Proof.
  intros Hc Hf. rewrite (Generate_listed _ _ _ _ _ _ _ Hc).
  rewrite (assembledCode_all_fail _ _ _ Hf). reflexivity.
Qed.

Lemma Generate_no_struct_witness :
  listingClient [nestedTable; missingTable] "d" = map NextTable [nestedTable; missingTable] /\
  Forall (fun t => structFails (fun _ => "") t = true) [nestedTable; missingTable] /\
  snd (Generate (fun _ => "") elements acceptAll acceptAll
         (listingClient [nestedTable; missingTable]) "d")
  = match acceptAll head with
    | (_, Some err) => ("", Some (wrap "format.Source" err))
    | (genFmt, None) =>
        match acceptAll genFmt with
        | (_, Some err) => ("", Some (wrap "imports.Process" err))
        | (genImports, None) => (genImports, None)
        end
    end.
Proof.
  assert (H1 : listingClient [nestedTable; missingTable] "d"
               = map NextTable [nestedTable; missingTable]) by reflexivity.
  assert (H2 : Forall (fun t => structFails (fun _ => "") t = true)
                 [nestedTable; missingTable]).
  { repeat constructor. }
  split; [exact H1 | split; [exact H2 |]].
  exact (Generate_no_struct _ _ _ _ _ _ _ H1 H2).
Defined.

(** ** Run *)

Lemma getOptOrEnvOrDefault_missing (getenv : string -> string)
    (optKey optValue envKey : string) :
  optKey <> "" -> optValue = "" -> getenv envKey = "" ->
  getOptOrEnvOrDefault getenv optKey optValue envKey ""
  = ("", Some ("set option -" ++ optKey ++ ", or set environment variable " ++ envKey)).
Proof.
  intros Hk Hv He. unfold getOptOrEnvOrDefault. rewrite Hv, He.
  destruct (String.eqb_spec optKey ""); [contradiction | reflexivity].
Qed.

Lemma getOptOrEnvOrDefault_present (getenv : string -> string)
    (optKey optValue envKey defaultValue : string) :
  optKey <> "" -> (optValue <> "" \/ getenv envKey <> "") ->
  snd (getOptOrEnvOrDefault getenv optKey optValue envKey defaultValue) = None.
Proof.
  intros Hk Hp. unfold getOptOrEnvOrDefault.
  case_eqb; simpl; try contradiction; try reflexivity; tauto.
Qed.

Lemma getOptOrEnvOrDefault_output (getenv : string -> string) (v : string) :
  snd (getOptOrEnvOrDefault getenv optNameOutputFile v envNameOutputFile
         defaultValueOutputFile) = None.
Proof.
  unfold getOptOrEnvOrDefault, optNameOutputFile, defaultValueOutputFile. simpl.
  destruct (String.eqb v ""); simpl; [| reflexivity].
  destruct (String.eqb (getenv envNameOutputFile) ""); reflexivity.
Qed.

Ltac destruct_opt_result E :=
  match goal with
  | |- context [getOptOrEnvOrDefault ?g ?k ?v ?e ?d] =>
      destruct (getOptOrEnvOrDefault g k v e d) as [? [?|]] eqn:E
  end.

(** [Run] needs a key file, a project and a dataset, each from its flag
    or its environment variable: the first one missing, in that order,
    stops the run with its error before any effect (no [os.Setenv], no
    client, no file written). *)
Theorem Run_requires_config (getenv : string -> string)
    (setenv : string -> string -> option error)
    (newClient : (string -> string) -> string -> Client * option error)
    (dumpTable : Table -> string) (iter : gset string -> list string)
    (formatSource importsProcess : string -> string * option error)
    (writeFile : string -> string -> option error) (opts : Options) :
  let R := Run getenv setenv newClient dumpTable iter formatSource importsProcess
             writeFile opts in
  let missing v k := v = "" /\ getenv k = "" in
  let present v k := v <> "" \/ getenv k <> "" in
  (missing (optValueKeyFile opts) envNameGoogleApplicationCredentials ->
   R = ([], Some (wrap "getOptOrEnvOrDefault"
         "set option -keyfile, or set environment variable GOOGLE_APPLICATION_CREDENTIALS"))) /\
  (present (optValueKeyFile opts) envNameGoogleApplicationCredentials ->
   missing (optValueProjectID opts) envNameGCloudProjectID ->
   R = ([], Some (wrap "getOptOrEnvOrDefault"
         "set option -project, or set environment variable GCLOUD_PROJECT_ID"))) /\
  (present (optValueKeyFile opts) envNameGoogleApplicationCredentials ->
   present (optValueProjectID opts) envNameGCloudProjectID ->
   missing (optValueDataset opts) envNameBigQueryDataset ->
   R = ([], Some (wrap "getOptOrEnvOrDefault"
         "set option -dataset, or set environment variable BIGQUERY_DATASET"))).
Proof.
  intros R missing present. unfold R, missing, present, Run.
  pose proof (getOptOrEnvOrDefault_output getenv (optValueOutputPath opts)) as Ho.
  destruct_opt_result E0; [discriminate Ho |].
  split; [| split].
  - intros [Hv He]. rewrite getOptOrEnvOrDefault_missing by (try discriminate; assumption).
    reflexivity.
  - intros Hk [Hv He].
    pose proof (getOptOrEnvOrDefault_present getenv optNameKeyFile _
                  envNameGoogleApplicationCredentials "" ltac:(discriminate) Hk) as Hk'.
    destruct_opt_result E1; [discriminate Hk' |].
    rewrite getOptOrEnvOrDefault_missing by (try discriminate; assumption).
    reflexivity.
  - intros Hk Hp [Hv He].
    pose proof (getOptOrEnvOrDefault_present getenv optNameKeyFile _
                  envNameGoogleApplicationCredentials "" ltac:(discriminate) Hk) as Hk'.
    destruct_opt_result E1; [discriminate Hk' |].
    pose proof (getOptOrEnvOrDefault_present getenv optNameProjectID _
                  envNameGCloudProjectID "" ltac:(discriminate) Hp) as Hp'.
    destruct_opt_result E2; [discriminate Hp' |].
    rewrite getOptOrEnvOrDefault_missing by (try discriminate; assumption).
    reflexivity.
Qed.


Ltac no_write_hyp Hin :=
  repeat (rewrite in_app_iff in Hin || rewrite in_map_iff in Hin);
  simpl in Hin;
  repeat match type of Hin with
         | _ \/ _ => destruct Hin as [Hin | Hin]
         | exists _, _ => destruct Hin as [? [? Hin]]
         end;
  try discriminate; try contradiction.




(** A successful [Run] ends with its only file write, to the path from
    the -output flag, else the OUTPUT_FILE variable, else
    "bqtableschema.generated.go". *)
Theorem Run_output_path (getenv : string -> string)
    (setenv : string -> string -> option error)
    (newClient : (string -> string) -> string -> Client * option error)
    (dumpTable : Table -> string) (iter : gset string -> list string)
    (formatSource importsProcess : string -> string * option error)
    (writeFile : string -> string -> option error) (opts : Options) :
  let R := Run getenv setenv newClient dumpTable iter formatSource importsProcess
             writeFile opts in
  let path := fst (getOptOrEnvOrDefault getenv optNameOutputFile
                     (optValueOutputPath opts) envNameOutputFile defaultValueOutputFile) in
  snd R = None ->
  (exists events contents,
     fst R = (events ++ [WriteFileEvent path contents])%list /\
     forall p c, ~ In (WriteFileEvent p c) events) /\
  (optValueOutputPath opts = "" -> getenv envNameOutputFile = "" ->
   path = "bqtableschema.generated.go").
Proof.
  intros R path Hok. split.
  2:{ intros Hv He. unfold path, getOptOrEnvOrDefault. rewrite Hv, He. reflexivity. }
  revert Hok. unfold R, path, Run.
  repeat (let E := fresh "E" in destruct_opt_result E;
          [let Hc := fresh "Hc" in intros Hc; discriminate Hc |]).
  cbn [fst].
  destruct (negb _); [destruct (setenv _ _) |]; cbn [fst snd].
  all: try (intros Hc; discriminate Hc).
  all: destruct (newClient _ _) as [client [err|]]; cbn [fst snd];
    try (intros Hc; discriminate Hc).
  all: destruct (Generate _ _ _ _ _ _) as [logs [code [err|]]]; cbn [fst snd];
    try (intros Hc; discriminate Hc).
  all: destruct (writeFile _ _); cbn [fst snd]; try (intros Hc; discriminate Hc).
  all: intros _; eexists; eexists; split;
    [reflexivity | intros p' c' Hin'; no_write_hyp Hin'].
Qed.

Lemma Run_output_path_witness :
  snd (Run emptyEnv okSetenv exampleNewClient (fun _ => "") elements acceptAll acceptAll
         okWriteFile exampleOptions) = None /\
  let R := Run emptyEnv okSetenv exampleNewClient (fun _ => "") elements acceptAll
             acceptAll okWriteFile exampleOptions in
  let path := fst (getOptOrEnvOrDefault emptyEnv optNameOutputFile
                     (optValueOutputPath exampleOptions) envNameOutputFile
                     defaultValueOutputFile) in
  (exists events contents,
     fst R = (events ++ [WriteFileEvent path contents])%list /\
     forall p c, ~ In (WriteFileEvent p c) events) /\
  (optValueOutputPath exampleOptions = "" -> emptyEnv envNameOutputFile = "" ->
   path = "bqtableschema.generated.go").
Proof.
  assert (H : snd (Run emptyEnv okSetenv exampleNewClient (fun _ => "") elements
                     acceptAll acceptAll okWriteFile exampleOptions) = None)
    by (vm_compute; reflexivity).
  split; [exact H | exact (Run_output_path _ _ _ _ _ _ _ _ _ H)].
Defined.

(** Once the four settings are found and os.Setenv succeeds, [Run] hands
    bigquery.NewClient an environment in which
    GOOGLE_APPLICATION_CREDENTIALS is the key file setting and every other
    variable is unchanged, together with the project setting; it records a
    Setenv exactly when the variable differed from the key file. A client
    whose creation fails with a message of its own making shows this. *)
Theorem Run_client_env (getenv : string -> string)
    (setenv : string -> string -> option error)
    (probe : (string -> string) -> string -> error) (c0 : Client)
    (dumpTable : Table -> string) (iter : gset string -> list string)
    (formatSource importsProcess : string -> string * option error)
    (writeFile : string -> string -> option error) (opts : Options) :
  let newClient := fun env project => (c0, Some (probe env project)) in
  let keyfile := fst (getOptOrEnvOrDefault getenv optNameKeyFile (optValueKeyFile opts)
                        envNameGoogleApplicationCredentials "") in
  let project := fst (getOptOrEnvOrDefault getenv optNameProjectID
                        (optValueProjectID opts) envNameGCloudProjectID "") in
  (forall k v, setenv k v = None) ->
  snd (getOptOrEnvOrDefault getenv optNameOutputFile (optValueOutputPath opts)
         envNameOutputFile defaultValueOutputFile) = None ->
  snd (getOptOrEnvOrDefault getenv optNameKeyFile (optValueKeyFile opts)
         envNameGoogleApplicationCredentials "") = None ->
  snd (getOptOrEnvOrDefault getenv optNameProjectID (optValueProjectID opts)
         envNameGCloudProjectID "") = None ->
  snd (getOptOrEnvOrDefault getenv optNameDataset (optValueDataset opts)
         envNameBigQueryDataset "") = None ->
  exists env,
    env envNameGoogleApplicationCredentials = keyfile /\
    (forall k, k <> envNameGoogleApplicationCredentials -> env k = getenv k) /\
    Run getenv setenv newClient dumpTable iter formatSource importsProcess writeFile opts =
    ((if String.eqb (getenv envNameGoogleApplicationCredentials) keyfile then []
      else [SetenvEvent envNameGoogleApplicationCredentials keyfile]),
     Some (wrap "bigquery.NewClient" (probe env project))).
Proof.
  intros newClient keyfile project Hset H1 H2 H3 H4. unfold keyfile, project, Run.
  destruct (getOptOrEnvOrDefault getenv optNameOutputFile _ _ _) as [filePath [e|]];
    [discriminate H1 |].
  destruct (getOptOrEnvOrDefault getenv optNameKeyFile _ _ _) as [kf [e|]];
    [discriminate H2 |].
  destruct (getOptOrEnvOrDefault getenv optNameProjectID _ _ _) as [pr [e|]];
    [discriminate H3 |].
  destruct (getOptOrEnvOrDefault getenv optNameDataset _ _ _) as [ds [e|]];
    [discriminate H4 |].
  cbn [fst].
  destruct (String.eqb_spec (getenv envNameGoogleApplicationCredentials) kf) as [Heq|Hne];
    cbn [negb].
  - exists getenv. split; [exact Heq | split; [reflexivity | reflexivity]].
  - rewrite Hset. exists (setenvUpdate getenv envNameGoogleApplicationCredentials kf).
    split; [unfold setenvUpdate; rewrite String.eqb_refl; reflexivity |].
    split; [| reflexivity].
    intros k Hk. unfold setenvUpdate. destruct (String.eqb_spec k envNameGoogleApplicationCredentials);
      [contradiction | reflexivity].
Qed.

Lemma Run_client_env_witness :
  (forall k v, okSetenv k v = None) /\
  exists env,
    env envNameGoogleApplicationCredentials = "key.json" /\
    (forall k, k <> envNameGoogleApplicationCredentials -> env k = emptyEnv k) /\
    Run emptyEnv okSetenv (fun env project => (listingClient [], Some (env envNameGoogleApplicationCredentials ++ " " ++ project)))
        (fun _ => "") elements acceptAll acceptAll okWriteFile exampleOptions =
    ([SetenvEvent envNameGoogleApplicationCredentials "key.json"],
     Some (wrap "bigquery.NewClient" (env envNameGoogleApplicationCredentials ++ " " ++ "p"))).
Proof.
  split; [reflexivity |].
  exact (Run_client_env emptyEnv okSetenv
           (fun env project => env envNameGoogleApplicationCredentials ++ " " ++ project)
           (listingClient []) (fun _ => "") elements acceptAll acceptAll okWriteFile
           exampleOptions (fun _ _ => eq_refl) eq_refl eq_refl eq_refl eq_refl).
Defined.
